(** * Umeeda: the reply decision of app.py

    A shallow embedding of [decide_reply] (app.py, lines 48-105) and of the
    Python values it handles, followed by the properties of the retrieval
    confidence decision: which branch is taken, what the direct answer and
    the grounded prompt look like, and how citations are rendered.

    Conventions.
    - A Python [str] is the [string] of its UTF-8 bytes.  Comparison of
      strings by code point is comparison of their UTF-8 bytes, so
      [sorted] is modelled with the byte order [String.le].
    - A Python [float] is a binary64 value, Rocq's primitive [float].
    - A retrieved entry is a [dict] with [str] keys: a [gmap string pyval].
    - An exception that leaves [decide_reply] is a [Raise]; an exception
      caught by the [except Exception] clauses carries its message. *)

From Stdlib Require Import Floats Ascii String.
From stdpp Require Import gmap strings list sorting pretty.

Set Warnings "-inexact-float".
Local Open Scope string_scope.

(** ** Python values *)

(** The values a retrieved entry can hold under its keys: [None], [bool],
    [int], [float] and [str]. *)
Inductive pyval : Type :=
  | VNone
  | VBool (b : bool)
  | VInt (z : Z)
  | VFloat (f : float)
  | VStr (s : string).

(** The exceptions the builtins used by [decide_reply] raise. *)
Inductive pyexn : Type :=
  | TypeError
  | ValueError
  | OverflowError
  | AttributeError.

Inductive result (A : Type) : Type :=
  | Ok (a : A)
  | Raise (e : pyexn).
Arguments Ok {A} a.
Arguments Raise {A} e.

Definition rbind {A B : Type} (m : result A) (k : A → result B) : result B :=
  match m with
  | Ok a => k a
  | Raise e => Raise e
  end.

Notation "'let*' x ':=' m 'in' k" := (rbind m (λ x, k))
  (at level 10, x name, m at level 100, k at level 200).

(** The line feed, written backslash-n in the source. *)
Definition NL : string := String (ascii_of_nat 10) EmptyString.

(** What CPython does with text and floats, and is no part of this
    repository: [float(s)] on a [str] ([None] when it raises [ValueError]),
    [str(f)] on a [float], and [s.strip()]. *)
Class PyRuntime : Type := {
  float_of_str : string → option float;
  str_of_float : float → string;
  str_strip : string → string
}.

(** [bool(v)]: the truth value that [or], [and] and [if] test. *)
Definition truthy (v : pyval) : bool :=
  match v with
  | VNone => false
  | VBool b => b
  | VInt z => negb (z =? 0)%Z
  | VFloat f => negb (PrimFloat.eqb f 0%float)
  | VStr s => negb (String.eqb s "")
  end.

(** [a or b]. *)
Definition py_or (a b : pyval) : pyval := if truthy a then a else b.

(** [d.get(k)] and [d.get(k, dflt)]. *)
Definition get (d : gmap string pyval) (k : string) : pyval :=
  default VNone (d !! k).

Definition get_d (d : gmap string pyval) (k : string) (dflt : pyval) : pyval :=
  default dflt (d !! k).

(** [float(z)] on an [int]: the nearest binary64, ties to even, and
    [OverflowError] past the largest finite one. *)
Definition float_of_int (z : Z) : result float :=
  match binary_normalize 53 1024 z 0 false with
  | S754_infinity _ => Raise OverflowError
  | sf => Ok (SF2Prim sf)
  end.

Definition lower_ascii (c : ascii) : ascii :=
  let n := nat_of_ascii c in
  if (65 <=? n)%nat && (n <=? 90)%nat then ascii_of_nat (n + 32) else c.

(** [s.lower()] on the ASCII letters.  No character outside ASCII lowers
    to a letter of the word urgent, so the comparison of line 81 reads the same
    on the bytes as on the code points. *)
Fixpoint lower (s : string) : string :=
  match s with
  | EmptyString => EmptyString
  | String c s' => String (lower_ascii c) (lower s')
  end.

(** [v.lower()]: only a [str] has the method. *)
Definition py_lower (v : pyval) : result string :=
  match v with
  | VStr s => Ok (lower s)
  | _ => Raise AttributeError
  end.

(** [sep.join(l)]. *)
Fixpoint join (sep : string) (l : list string) : string :=
  match l with
  | [] => ""
  | x :: l' =>
      match l' with
      | [] => x
      | _ :: _ => x +:+ sep +:+ join sep l'
      end
  end.

(** [sorted(S)] on a set of [str]. *)
Definition sorted (S : gset string) : list string :=
  merge_sort String.le (elements S).

(** [any(f(r) for r in l)]: stops at the first true, and at the first
    exception. *)
Fixpoint py_any {A : Type} (f : A → result bool) (l : list A) : result bool :=
  match l with
  | [] => Ok false
  | r :: l' => let* b := f r in if b then Ok true else py_any f l'
  end.

Section runtime.
Context `{!PyRuntime}.

(** What an f-string puts for [{v}]: [str(v)]. *)
Definition to_str (v : pyval) : string :=
  match v with
  | VNone => "None"
  | VBool b => if b then "True" else "False"
  | VInt z => pretty z
  | VFloat f => str_of_float f
  | VStr s => s
  end.

(** [float(v)]. *)
Definition py_float (v : pyval) : result float :=
  match v with
  | VNone => Raise TypeError
  | VBool b => Ok (if b then 1%float else 0%float)
  | VInt z => float_of_int z
  | VFloat f => Ok f
  | VStr s =>
      match float_of_str s with
      | Some f => Ok f
      | None => Raise ValueError
      end
  end.
End runtime.

(** ** Constants of app.py *)

(** Lines 25-33. *)
Definition CULTURE_SYSTEM_PROMPT : string := "
You are Umeeda, an assistant for users in Pakistan. Answer respectfully and according to Islamic and local cultural norms.
Follow these rules:
1. Use modest, family-friendly and respectful language.
2. Avoid sexual/explicit content or instructions for harmful/illegal activities.
3. Do not produce content that insults, dehumanizes, or encourages violence towards any person or group.
4. If the user requests something that violates the rules above, politely refuse and optionally provide a safe alternative.
5. Be concise and, when appropriate, reference Islamic values respectfully.
".

(** Line 46. *)
Definition HIGH_CONFIDENCE_THRESHOLD : float := 0.78%float.

(** Line 82, the text of the warning. *)
Definition URGENT_BANNER : string :=
  "⚠️ This appears urgent. Please consult a qualified person." +:+ NL +:+ NL.

(** Line 65. *)
Definition NO_REFERENCE : string :=
  "I couldn't find a direct reference. Please rephrase or ask for more details.".

(** Lines 58 and 100. *)
Definition NO_ANSWER : string := "Sorry — I couldn't produce an answer.".

(** ** The generation service, as [decide_reply] observes it *)

(** A value read off the response: a [str], or some other object, of
    which the code observes the truth value and the exception that the
    call of [strip] raises on it, by its message (an object of the
    service is no [str] and has no such method). *)
Inductive content : Type :=
  | CStr (s : string)
  | CObj (truthy : bool) (strip_error : string).

(** An attribute of a response object: not there; there with a value
    ([None] included); a property whose getter raises [AttributeError];
    or a property whose getter raises another exception, with its
    message. *)
Inductive attr : Type :=
  | Missing
  | Value (v : option content)
  | RaisesAttributeError
  | Fails (msg : string).

Record candidate : Type := { cand_content : attr }.

(** [resp_candidates] is [None] when the response has no such attribute. *)
Record response : Type := {
  resp_text : attr;
  resp_candidates : option (list candidate)
}.

(** What [model.generate_content(prompt)] does: it raises, with the
    message [str(e)], or it returns a response. *)
Inductive gen_outcome : Type :=
  | GenRaise (msg : string)
  | GenOk (resp : response).

(** Inside the [try]: a value, or the message of the exception the
    [except Exception] clause catches. *)
Inductive caught (A : Type) : Type :=
  | Fine (a : A)
  | Exc (msg : string).
Arguments Fine {A} a.
Arguments Exc {A} msg.

(** [getattr(obj, name, None)]: the default stands for an attribute that
    is not there and for a getter that raises [AttributeError]; any other
    exception of the getter goes on. *)
Definition getattr (a : attr) : caught (option content) :=
  match a with
  | Missing => Fine None
  | Value v => Fine v
  | RaisesAttributeError => Fine None
  | Fails msg => Exc msg
  end.

Definition content_truthy (t : option content) : bool :=
  match t with
  | None => false
  | Some (CStr s) => negb (String.eqb s "")
  | Some (CObj truthy _) => truthy
  end.

(** [text.strip() if text else ...], on a text that is truthy. *)
Definition strip_content `{!PyRuntime} (t : content) : caught string :=
  match t with
  | CStr s => Fine (str_strip s)
  | CObj _ msg => Exc msg
  end.

(** ** The entries *)

(** The locals of lines 70-75, read off the top entry. *)
Record KnowledgeEntry : Type := {
  short_answer : pyval;
  detailed_answer : pyval;
  entry_id : pyval;
  source : pyval;
  risk : pyval
}.

Definition normalize (top : gmap string pyval) : KnowledgeEntry := {|
  short_answer := py_or (py_or (get top "short_answer") (get top "text")) (VStr "");
  detailed_answer := py_or (py_or (get top "detailed_answer") (get top "text")) (VStr "");
  entry_id := py_or (py_or (get top "id") (get top "chunk_id")) (VStr "unknown");
  source := get_d top "source" (VStr "unknown");
  risk := get_d top "risk_level" (get_d top "risk" (VStr "Info"))
|}.

(** Line 81, the test under [any]: the two comparisons and the [or]
    between them, left to right. *)
Definition is_urgent (r : gmap string pyval) : result bool :=
  let* a := py_lower (get_d r "risk_level" (VStr "")) in
  if String.eqb a "urgent" then Ok true
  else
    let* b := py_lower (get_d r "risk" (VStr "")) in
    Ok (String.eqb b "urgent").

(** What [decide_reply] has settled before it calls the model, if it
    calls it: the reply of line 65, the reply of line 83, or the prompt
    of line 53 (no results kept) or of line 94 (with the results the
    sources of line 102 are read from). *)
Inductive decision : Type :=
  | NoResult (msg : string)
  | DirectAnswer (text : string)
  | GroundedPrompt (prompt : string) (results : option (list (gmap string pyval))).

Section app.
Context `{!PyRuntime}.

(** Lines 87-92, what one turn of the loop appends. *)
Definition rag_block (r : gmap string pyval) : string :=
  let r_src := get_d r "source" (VStr "unknown") in
  let r_id := get_d r "id" (get_d r "chunk_id" (VStr "unknown")) in
  let r_risk := get_d r "risk_level" (get_d r "risk" (VStr "Info")) in
  let r_detail :=
    py_or (py_or (get r "detailed_answer") (get r "text")) (VStr "") in
  "[" +:+ to_str r_src +:+ " | ID:" +:+ to_str r_id +:+ " | Risk:"
    +:+ to_str r_risk +:+ "]" +:+ NL +:+ to_str r_detail +:+ NL +:+ NL.

(** Lines 85-92. *)
Definition rag_context (results : list (gmap string pyval)) : string :=
  fold_left (λ acc r, acc +:+ rag_block r) results "".

(** Line 102, one element of the set. *)
Definition source_item (r : gmap string pyval) : string :=
  to_str (get_d r "source" (VStr "unknown")) +:+ " (ID "
    +:+ to_str (get_d r "id" (get_d r "chunk_id" (VStr "?"))) +:+ ")".

(** Line 102, the sorted set. *)
Definition source_items (results : list (gmap string pyval)) : list string :=
  sorted (list_to_set (source_item <$> results)).

(** Line 102. *)
Definition sources (results : list (gmap string pyval)) : string :=
  join ", " (source_items results).

(** Lines 63-94, from the results of the retrieval on. *)
Definition kb_decide (query : string) (results : list (gmap string pyval))
  : result decision :=
  match results with
  | [] => Ok (NoResult NO_REFERENCE)
  | top :: _ =>
      let* score := py_float (get_d top "score" (VFloat 0%float)) in
      let e := normalize top in
      if PrimFloat.leb HIGH_CONFIDENCE_THRESHOLD score && truthy (short_answer e)
      then
        let* urgent := py_any is_urgent results in
        let prefix := if urgent : bool then URGENT_BANNER else "" in
        Ok (DirectAnswer
              (prefix +:+ to_str (short_answer e) +:+ NL +:+ NL +:+ "Source: ["
                 +:+ to_str (source e) +:+ " | ID:" +:+ to_str (entry_id e) +:+ "]"))
      else
        Ok (GroundedPrompt
              (CULTURE_SYSTEM_PROMPT +:+ NL +:+ NL +:+ "Retrieved knowledge:" +:+ NL
                 +:+ rag_context results +:+ NL +:+ "User question:" +:+ NL +:+ query
                 +:+ NL +:+ NL +:+ "Answer using the retrieved knowledge and cite sources.")
              (Some results))
  end.

(** Lines 55-58 and 96-99: the text of the response, stripped. *)
Definition reply_text (resp : response) : caught string :=
  match getattr (resp_text resp) with
  | Exc msg => Exc msg
  | Fine text =>
      let text' :=
        if content_truthy text then Fine text
        else
          match resp_candidates resp with
          | Some (c :: _) => getattr (cand_content c)
          | _ => Fine text
          end in
      match text' with
      | Exc msg => Exc msg
      | Fine None => Fine NO_ANSWER
      | Fine (Some t) =>
          if content_truthy (Some t) then strip_content t else Fine NO_ANSWER
      end
  end.

Context {Index Metadata : Type}.

(** [retrieve] of kb_loader, which is not among the source files, taken
    as the list it returns. *)
Variable retrieve : string → Index → Metadata → nat → list (gmap string pyval).

(** [model.generate_content]. *)
Variable generate_content : string → gen_outcome.

(** Lines 50-53 and 62-94: [decide_reply] up to the call of the model.
    [INDEX] and [METADATA] are the two globals, [None] when no index is
    loaded. *)
Definition decide (INDEX : option Index) (METADATA : option Metadata)
    (query : string) : result decision :=
  match INDEX, METADATA with
  | Some index, Some metadata => kb_decide query (retrieve query index metadata 4)
  | _, _ =>
      Ok (GroundedPrompt (CULTURE_SYSTEM_PROMPT +:+ NL +:+ NL +:+ "User: " +:+ query) None)
  end.

(** Lines 54-60 and 95-105: the call of the model and what is made of
    its response. *)
Definition generate (prompt : string)
    (results : option (list (gmap string pyval))) : string :=
  let answer :=
    match generate_content prompt with
    | GenRaise msg => Exc msg
    | GenOk resp => reply_text resp
    end in
  match answer with
  | Exc msg => "Error contacting model: " +:+ msg
  | Fine final =>
      match results with
      | None => final
      | Some results => final +:+ NL +:+ NL +:+ "Sources: " +:+ sources results
      end
  end.

(** [decide_reply] (lines 48-105). *)
Definition decide_reply (INDEX : option Index) (METADATA : option Metadata)
    (query : string) : result string :=
  let* d := decide INDEX METADATA query in
  match d with
  | NoResult msg => Ok msg
  | DirectAnswer text => Ok text
  | GroundedPrompt prompt results => Ok (generate prompt results)
  end.
End app.

(** ** Reading the model *)

(** A runtime for the examples below: they hold no [float] under a text
    key and no [str] under the score, and strip no reply, so what it
    answers is never asked. *)
Definition stub_runtime : PyRuntime := {|
  float_of_str := λ _, None;
  str_of_float := λ _, "nan";
  str_strip := λ s, s
|}.

(** A field that is a [str], or not there. *)
Definition str_or_absent (o : option pyval) : Prop :=
  match o with
  | None => True
  | Some (VStr _) => True
  | Some _ => False
  end.

#[global] Instance str_or_absent_dec o : Decision (str_or_absent o).
Proof. destruct o as [[| | | |s]|]; simpl; apply _. Defined.

(** The field [k] of [r] is a [str] that reads urgent, whatever its case. *)
Definition field_urgent (r : gmap string pyval) (k : string) : Prop :=
  match r !! k with
  | Some (VStr s) => lower s = "urgent"
  | _ => False
  end.

#[global] Instance field_urgent_dec r k : Decision (field_urgent r k).
Proof. unfold field_urgent. destruct (r !! k) as [[| | | |s]|]; apply _. Defined.

(** What line 81 looks for in an entry. *)
Definition raw_urgent (r : gmap string pyval) : Prop :=
  field_urgent r "risk_level" ∨ field_urgent r "risk".

#[global] Instance raw_urgent_dec r : Decision (raw_urgent r).
Proof. unfold raw_urgent. apply _. Defined.

(** The two fields line 81 calls [lower] on are text. *)
Definition risk_typed (r : gmap string pyval) : Prop :=
  str_or_absent (r !! "risk_level") ∧ str_or_absent (r !! "risk").

#[global] Instance risk_typed_dec r : Decision (risk_typed r).
Proof. unfold risk_typed. apply _. Defined.

(** The keys lines 70-102 read as text. *)
Definition text_keys : list string :=
  ["id"; "chunk_id"; "source"; "short_answer"; "detailed_answer"; "text";
   "risk_level"; "risk"].

(** An entry as the specification has it: every text field is a [str] or
    is not there. *)
Definition text_typed (r : gmap string pyval) : Prop :=
  Forall (λ k, str_or_absent (r !! k)) text_keys.

#[global] Instance text_typed_dec r : Decision (text_typed r).
Proof. unfold text_typed. apply _. Defined.

(** The resolution rule in the words of the specification: the first
    candidate that is there and not empty wins, else the literal. *)
Fixpoint first_nonempty (cands : list (option pyval)) (dflt : string) : pyval :=
  match cands with
  | [] => VStr dflt
  | Some (VStr s) :: cands' =>
      if String.eqb s "" then first_nonempty cands' dflt else VStr s
  | _ :: cands' => first_nonempty cands' dflt
  end.

(** The canonical entry in the words of the specification (its 4.1). *)
Definition spec_normalize (raw : gmap string pyval) : KnowledgeEntry := {|
  short_answer := first_nonempty [raw !! "short_answer"; raw !! "text"] "";
  detailed_answer := first_nonempty [raw !! "detailed_answer"; raw !! "text"] "";
  entry_id := first_nonempty [raw !! "id"; raw !! "chunk_id"] "unknown";
  source := first_nonempty [raw !! "source"] "unknown";
  risk := first_nonempty [raw !! "risk_level"; raw !! "risk"] "Info"
|}.

(** What [d.get(k1, d.get(k2, dflt))] resolves to: the first candidate
    that is there, empty or not. *)
Fixpoint first_present (cands : list (option pyval)) (dflt : string) : pyval :=
  match cands with
  | [] => VStr dflt
  | Some v :: _ => v
  | None :: cands' => first_present cands' dflt
  end.

(** The two fields an item of the sources list is made of (line 102). *)
Definition cite_pair (r : gmap string pyval) : pyval * pyval :=
  (get_d r "source" (VStr "unknown"),
   get_d r "id" (get_d r "chunk_id" (VStr "?"))).



(** A retrieval that returns [results] whatever it is asked. *)
Definition fixed_retrieve (results : list (gmap string pyval))
  : string → unit → unit → nat → list (gmap string pyval) :=
  λ _ _ _ _, results.

(** A model that answers every prompt with the same sentence. *)
Definition ex_model : string → gen_outcome :=
  λ _, GenOk {| resp_text := Value (Some (CStr "Have patience."));
                resp_candidates := None |}.

(** The entry of the specification's first end-to-end example, with the
    score 0.9 under its key. *)
Definition ex_patient : gmap string pyval :=
  list_to_map [("id", VStr "A1"); ("source", VStr "Quran-Tafsir");
               ("short_answer", VStr "Be patient."); ("risk_level", VStr "Info");
               ("score", VFloat 0.9%float)].


(** The entry of the second end-to-end example: the same, marked urgent. *)
Definition ex_urgent : gmap string pyval :=
  <["risk_level" := VStr "Urgent"]> ex_patient.

(** The entry of the fourth end-to-end example: a high score and an
    empty short answer. *)
Definition ex_no_short : gmap string pyval :=
  list_to_map [("id", VStr "A1"); ("source", VStr "Quran-Tafsir");
               ("short_answer", VStr ""); ("score", VFloat 0.95%float)].

(** An entry whose two risk keys disagree. *)
Definition ex_two_risks : gmap string pyval :=
  list_to_map [("short_answer", VStr "Rest."); ("risk_level", VStr "Info");
               ("risk", VStr "urgent"); ("score", VFloat 0.9%float)].

(** An entry whose score is [None]. *)
Definition ex_none_score : gmap string pyval :=
  list_to_map [("id", VStr "A1"); ("short_answer", VStr "Be patient.");
               ("score", VNone)].

(** An entry without a score. *)
Definition ex_no_score : gmap string pyval :=
  list_to_map [("id", VStr "A1"); ("source", VStr "Quran-Tafsir");
               ("short_answer", VStr "Be patient.")].

(** An entry whose source is the empty string. *)
Definition ex_empty_source : gmap string pyval :=
  list_to_map [("id", VStr "A1"); ("source", VStr "");
               ("short_answer", VStr "Be patient."); ("score", VFloat 0.9%float)].

(** An entry as the ingestion of a PDF chunk leaves it. *)
Definition ex_chunk : gmap string pyval :=
  list_to_map [("chunk_id", VStr "c7"); ("text", VStr "Patience is rewarded.");
               ("source", VStr "book.pdf")].

(** An entry with a text and nothing else. *)
Definition ex_bare : gmap string pyval :=
  list_to_map [("text", VStr "Patience is rewarded.")].

(** Two entries that differ in source and in id and are cited alike. *)
Definition ex_left : gmap string pyval :=
  list_to_map [("source", VStr "a"); ("id", VStr "b (ID c")].

Definition ex_right : gmap string pyval :=
  list_to_map [("source", VStr "a (ID b"); ("id", VStr "c")].

(** The entry of the third end-to-end example: a score under the
    threshold and a detailed answer. *)
Definition ex_low : gmap string pyval :=
  list_to_map [("id", VStr "A1"); ("source", VStr "Quran-Tafsir");
               ("short_answer", VStr "Be patient.");
               ("detailed_answer", VStr "Patience is rewarded.");
               ("risk_level", VStr "Info"); ("score", VFloat 0.4%float)].

(** Closes the typing of a concrete entry. *)
Ltac typed_example := repeat constructor; vm_compute; exact I.

Section reading.
Context `{!PyRuntime}.

(** The answer and its citation line, as line 83 lays them out after
    the prefix. *)
Definition direct_body (e : KnowledgeEntry) : string :=
  to_str (short_answer e) +:+ NL +:+ NL +:+ "Source: ["
    +:+ to_str (source e) +:+ " | ID:" +:+ to_str (entry_id e) +:+ "]".

(** The prompt of line 94. *)
Definition rag_prompt (query : string) (results : list (gmap string pyval)) : string :=
  CULTURE_SYSTEM_PROMPT +:+ NL +:+ NL +:+ "Retrieved knowledge:" +:+ NL
    +:+ rag_context results +:+ NL +:+ "User question:" +:+ NL +:+ query
    +:+ NL +:+ NL +:+ "Answer using the retrieved knowledge and cite sources.".

(** The test of line 78. *)
Definition confident (score : float) (e : KnowledgeEntry) : bool :=
  PrimFloat.leb HIGH_CONFIDENCE_THRESHOLD score && truthy (short_answer e).

(** An item of the sources list, from its two fields. *)
Definition render_pair (p : pyval * pyval) : string :=
  to_str p.1 +:+ " (ID " +:+ to_str p.2 +:+ ")".
End reading.

(** ** The rest of app.py: the chat callback, the index and the history *)

(** The keys of [st.session_state] the script uses, each [None] when the
    key is not there: the text of the input box, the exchanges so far as
    pairs of query and reply, and the flag of an empty submission. *)
Record session_state : Type := {
  user_input : option string;
  history : option (list (string * string));
  _show_warning : option bool
}.

(** A message in the sidebar: [st.sidebar.info], [st.sidebar.success] and
    [st.sidebar.error]. *)
Inductive sidebar : Type :=
  | sidebar_info (msg : string)
  | sidebar_success (msg : string)
  | sidebar_error (msg : string).

(** Lines 192-201, the block of the user. *)
Definition user_block (u : string) : string :=
  "
    <div style='background:#f0f2f6;
                border-radius:12px;
                padding:8px;
                margin:6px 0;
                max-width:90%;
                color:#1C2833;'>  <!-- dark text -->
        <b style='color:#154360;'>You:</b> " +:+ u +:+ "
    </div>
    ".

(** Lines 204-213, the block of the assistant. *)
Definition bot_block (b : string) : string :=
  "
    <div style='background:#fff8e1;
                border-radius:12px;
                padding:8px;
                margin:6px 0;
                max-width:90%;
                color:#4A235A;'>  <!-- darker text -->
        <b style='color:#6C3483;'>Umeeda:</b> " +:+ b +:+ "
    </div>
    ".

(** Lines 187-213: what the loop hands to [st.markdown], call after
    call. *)
Definition display_history (h : list (string * string)) : list string :=
  flat_map (λ ub, [user_block ub.1; bot_block ub.2]) h.

Section script.
Context `{!PyRuntime} {Index Metadata : Type}.

(** Lines 36-43.  [load] is what [load_index] does when it is called: the
    pair it returns, or the exception it raises (each component may be
    [None]). *)
Definition load_at_start (load : caught (option Index * option Metadata))
  : (option Index * option Metadata) * list sidebar :=
  match load with
  | Fine kb => (kb, [sidebar_success "Knowledge index loaded."])
  | Exc _ => ((None, None), [])
  end.

(** Lines 134-145, when the button is clicked.  [csv_exists] is the answer
    of [os.path.exists], [ingest] what [ingest_csv] does and [load] what
    [load_index] does after it; [kb] is the pair of [INDEX] and
    [METADATA] before the click. *)
Definition import_csv_clicked (csv_exists : bool) (ingest : caught unit)
    (load : caught (option Index * option Metadata))
    (kb : option Index * option Metadata)
  : (option Index * option Metadata) * list sidebar :=
  if csv_exists then
    let started :=
      sidebar_info "Ingesting CSV and building index (this can take a moment)..." in
    match ingest with
    | Exc msg => (kb, [started; sidebar_error ("Ingest failed: " +:+ msg)])
    | Fine _ =>
        match load with
        | Exc msg => (kb, [started; sidebar_error ("Ingest failed: " +:+ msg)])
        | Fine kb' => (kb', [started; sidebar_success "CSV ingested and index built."])
        end
    end
  else (kb, [sidebar_error "data/kb_import.csv not found. Upload CSV first."]).

(** Lines 147-154, when the button is clicked.  [build] is what
    [build_index] does. *)
Definition rebuild_clicked (build : caught unit)
    (load : caught (option Index * option Metadata))
    (kb : option Index * option Metadata)
  : (option Index * option Metadata) * list sidebar :=
  let started := sidebar_info "Building index from PDFs in data/sources..." in
  match build with
  | Exc msg => (kb, [started; sidebar_error ("Rebuild failed: " +:+ msg)])
  | Fine _ =>
      match load with
      | Exc msg => (kb, [started; sidebar_error ("Rebuild failed: " +:+ msg)])
      | Fine kb' => (kb', [started; sidebar_success "Index rebuilt from PDFs."])
      end
  end.

Variable retrieve : string → Index → Metadata → nat → list (gmap string pyval).
Variable generate_content : string → gen_outcome.
Variables (INDEX : option Index) (METADATA : option Metadata).

(** [_on_submit] (lines 157-172): the session state it leaves, and [Ok]
    or the exception that leaves it through [decide_reply]. *)
Definition _on_submit (st : session_state) : session_state * result unit :=
  let query := str_strip (default "" (user_input st)) in
  if String.eqb query "" then
    ({| user_input := user_input st; history := history st;
        _show_warning := Some (default true (_show_warning st)) |}, Ok ())
  else
    let h := default [] (history st) in
    match decide_reply retrieve generate_content INDEX METADATA query with
    | Raise e =>
        ({| user_input := user_input st; history := Some h;
            _show_warning := _show_warning st |}, Raise e)
    | Ok reply =>
        ({| user_input := Some ""; history := Some ((h ++ [(query, reply)])%list);
            _show_warning := None |}, Ok ())
    end.
End script.

(** A score as the retrieval computes it: a [float], or not there. *)
Definition score_typed (r : gmap string pyval) : Prop :=
  match r !! "score" with
  | None => True
  | Some (VFloat _) => True
  | Some _ => False
  end.

#[global] Instance score_typed_dec r : Decision (score_typed r).
Proof. unfold score_typed. destruct (r !! "score") as [[| | | |s]|]; apply _. Defined.

(** A session with a question typed in and nothing else. *)
Definition ex_session : session_state :=
  {| user_input := Some "How do I cope?"; history := None; _show_warning := None |}.

(** A session with one exchange and an empty input box. *)
Definition ex_idle_session : session_state :=
  {| user_input := Some "";
     history := Some [("How do I cope?", "Have patience.")];
     _show_warning := None |}.


(** A response with no text and a first candidate whose content is an
    object of the service. *)
Definition ex_content_response : response :=
  {| resp_text := Value None;
     resp_candidates :=
       Some [{| cand_content :=
                  Value (Some (CObj true "Unknown field for Content: strip")) |}] |}.

(** A response whose text cannot be read and whose first candidate holds
    a text. *)
Definition ex_candidate_response : response :=
  {| resp_text := RaisesAttributeError;
     resp_candidates :=
       Some [{| cand_content := Value (Some (CStr "Have patience.")) |}] |}.



(** An entry whose risk level is [None], and one marked urgent. *)
Definition ex_null_risk : gmap string pyval :=
  list_to_map [("id", VStr "B2"); ("risk_level", VNone)].

(** An entry whose score is not a number. *)
Definition ex_nan_score : gmap string pyval :=
  <["score" := VFloat nan]> ex_patient.

Section properties.
Context `{!PyRuntime}.


Lemma is_urgent_true r : is_urgent r = Ok true → raw_urgent r.
Proof.
  unfold is_urgent, raw_urgent, field_urgent, get_d.
  destruct (r !! "risk_level") as [[| | | |a]|]; simpl; try discriminate.
  - destruct (String.eqb_spec (lower a) "urgent") as [Hu|Hu]; [by left|].
    destruct (r !! "risk") as [[| | | |b]|]; simpl; try discriminate.
    intros [= Hb]. apply String.eqb_eq in Hb. by right.
  - destruct (r !! "risk") as [[| | | |b]|]; simpl; try discriminate.
    intros [= Hb]. apply String.eqb_eq in Hb. by right.
Qed.

Lemma is_urgent_false r : is_urgent r = Ok false → ¬ raw_urgent r.
Proof.
  unfold is_urgent, raw_urgent, field_urgent, get_d.
  destruct (r !! "risk_level") as [[| | | |a]|]; simpl; try discriminate.
  - destruct (String.eqb_spec (lower a) "urgent") as [Hu|Hu]; [discriminate|].
    destruct (r !! "risk") as [[| | | |b]|]; simpl; try discriminate.
    + intros [= Hb]. apply String.eqb_neq in Hb. by intros [|].
    + by intros _ [|].
  - destruct (r !! "risk") as [[| | | |b]|]; simpl; try discriminate.
    + intros [= Hb]. apply String.eqb_neq in Hb. by intros [|].
    + by intros _ [|].
Qed.

Lemma is_urgent_typed r : risk_typed r → ∃ b, is_urgent r = Ok b.
Proof.
  unfold risk_typed, is_urgent, get_d. intros [Ha Hb].
  destruct (r !! "risk_level") as [[| | | |a]|]; simpl in *; try done;
    destruct (r !! "risk") as [[| | | |b]|]; simpl in *; try done;
    repeat match goal with
      | |- context [if ?c then _ else _] => destruct c
      end; eauto.
Qed.

Lemma any_urgent_true l :
  py_any is_urgent l = Ok true → ∃ r, r ∈ l ∧ raw_urgent r.
Proof.
  induction l as [|r l IH]; simpl; [discriminate|].
  destruct (is_urgent r) as [[|]|] eqn:Hr; simpl; try discriminate.
  - intros _. exists r. split; [left|by apply is_urgent_true].
  - intros Hl. destruct (IH Hl) as (r' & ? & ?). exists r'. split; [by right|done].
Qed.

Lemma any_urgent_false l :
  py_any is_urgent l = Ok false → ∀ r, r ∈ l → ¬ raw_urgent r.
Proof.
  induction l as [|r l IH]; simpl; [intros _ r Hr; inversion Hr|].
  destruct (is_urgent r) as [[|]|] eqn:Hr; simpl; try discriminate.
  intros Hl r' Hin. apply elem_of_cons in Hin as [->|Hin].
  - by apply is_urgent_false.
  - by apply IH.
Qed.

Lemma any_urgent_typed l : Forall risk_typed l → ∃ b, py_any is_urgent l = Ok b.
Proof.
  induction 1 as [|r l Hr _ [b IH]]; simpl; [eauto|].
  destruct (is_urgent_typed r Hr) as [[|] ->]; simpl; eauto.
Qed.

(** The three ways out of lines 63-94 once the score is read. *)
Lemma kb_decide_direct query top rest score urgent :
  py_float (get_d top "score" (VFloat 0%float)) = Ok score →
  confident score (normalize top) = true →
  py_any is_urgent (top :: rest) = Ok urgent →
  kb_decide query (top :: rest)
  = Ok (DirectAnswer ((if urgent then URGENT_BANNER else "")
                        +:+ direct_body (normalize top))).
Proof.
  intros Hs Hc Hu. unfold kb_decide, confident in *.
  rewrite Hs. cbn [rbind]. rewrite Hc, Hu. reflexivity.
Qed.

Lemma kb_decide_grounded query top rest score :
  py_float (get_d top "score" (VFloat 0%float)) = Ok score →
  confident score (normalize top) = false →
  kb_decide query (top :: rest)
  = Ok (GroundedPrompt (rag_prompt query (top :: rest)) (Some (top :: rest))).
Proof.
  intros Hs Hc. unfold kb_decide, confident in *.
  rewrite Hs. cbn [rbind]. rewrite Hc. reflexivity.
Qed.

Lemma kb_decide_direct_inv query results text :
  kb_decide query results = Ok (DirectAnswer text) →
  ∃ top rest score urgent,
    results = top :: rest
    ∧ py_float (get_d top "score" (VFloat 0%float)) = Ok score
    ∧ confident score (normalize top) = true
    ∧ py_any is_urgent results = Ok urgent
    ∧ text = (if urgent then URGENT_BANNER else "") +:+ direct_body (normalize top).
Proof.
  destruct results as [|top rest]; [discriminate|].
  unfold kb_decide.
  destruct (py_float _) as [score|] eqn:Hs; [|discriminate]. cbn [rbind].
  destruct (PrimFloat.leb _ _ && _) eqn:Hc; [|discriminate].
  destruct (py_any is_urgent (top :: rest)) as [urgent|] eqn:Hu; [|discriminate].
  cbn [rbind]. intros [= <-]. exists top, rest, score, urgent. done.
Qed.


Lemma threshold_above_zero :
  PrimFloat.leb HIGH_CONFIDENCE_THRESHOLD 0%float = false.
Proof. reflexivity. Qed.



Context {Index Metadata : Type}.
Implicit Types (retrieve : string → Index → Metadata → nat → list (gmap string pyval)).
Implicit Types (generate_content : string → gen_outcome).

(** *** Resolution of the fields *)

Lemma text_typed_at r k : text_typed r → k ∈ text_keys → str_or_absent (r !! k).
Proof. unfold text_typed. rewrite Forall_forall. auto. Qed.


Lemma or_chain_first_nonempty (a b : option pyval) (dflt : string) :
  str_or_absent a → str_or_absent b →
  py_or (py_or (default VNone a) (default VNone b)) (VStr dflt)
  = first_nonempty [a; b] dflt.
Proof.
  destruct a as [[| | | |s]|], b as [[| | | |t]|]; simpl; try done; intros _ _;
    unfold py_or; simpl;
    repeat match goal with
      | |- context [String.eqb ?x ""] => destruct (String.eqb x "") eqn:?; simpl
      end; done.
Qed.

Lemma first_nonempty_str cands dflt :
  Forall str_or_absent cands → ∃ s, first_nonempty cands dflt = VStr s.
Proof.
  induction 1 as [|[[| | | |s]|] cands Hc _ IH]; simpl in *; try done; eauto.
  destruct (String.eqb s ""); eauto.
Qed.

Lemma first_nonempty_filled cands dflt s :
  dflt ≠ "" → first_nonempty cands dflt = VStr s → s ≠ "".
Proof.
  intros Hd. induction cands as [|[[| | | |t]|] cands IH]; simpl; try done.
  - by intros [= <-].
  - destruct (String.eqb_spec t ""); [done|]. by intros [= <-].
Qed.

Lemma first_present_agrees cands dflt :
  Forall (λ c, c ≠ Some (VStr "")) cands → Forall str_or_absent cands →
  first_present cands dflt = first_nonempty cands dflt.
Proof.
  induction 1 as [|[[| | | |s]|] cands Hc _ IH]; simpl; try done;
    inversion_clear 1; simpl in *; try done; auto.
  destruct (String.eqb_spec s ""); [congruence|done].
Qed.

(** *** The branch taken *)

Lemma decide_loaded retrieve index metadata query :
  decide retrieve (Some index) (Some metadata) query
  = kb_decide query (retrieve query index metadata 4).
Proof. reflexivity. Qed.




(** A score that is a [str] and no float literal: the [ValueError] of
    [float] leaves [decide_reply]. *)
Lemma unparsable_score_raises retrieve generate_content index metadata query top rest s :
  retrieve query index metadata 4 = top :: rest →
  top !! "score" = Some (VStr s) →
  float_of_str s = None →
  decide_reply retrieve generate_content (Some index) (Some metadata) query
  = Raise ValueError.
Proof.
  intros Hret Hs Hnone. unfold decide_reply, decide, kb_decide, get_d.
  rewrite Hret, Hs. simpl. by rewrite Hnone.
Qed.

(** C4, as the code has it.  A top entry without a score is read as 0.0:
    the low-confidence branch is taken and the query is answered.  A score
    that [float] does not take is not read as 0.0: its exception leaves
    [decide_reply]. *)
Theorem absent_score_reads_zero retrieve generate_content index metadata query top rest :
  retrieve query index metadata 4 = top :: rest →
  (top !! "score" = None →
     py_float (get_d top "score" (VFloat 0%float)) = Ok 0%float
     ∧ decide retrieve (Some index) (Some metadata) query
       = Ok (GroundedPrompt (rag_prompt query (top :: rest)) (Some (top :: rest)))
     ∧ decide_reply retrieve generate_content (Some index) (Some metadata) query
       = Ok (generate generate_content (rag_prompt query (top :: rest))
               (Some (top :: rest))))
  ∧ (∀ e, py_float (get_d top "score" (VFloat 0%float)) = Raise e →
       decide_reply retrieve generate_content (Some index) (Some metadata) query
       = Raise e).
Proof.
  intros Hret. split.
  - intros Habsent.
    assert (Hscore : py_float (get_d top "score" (VFloat 0%float)) = Ok 0%float)
      by (unfold get_d; by rewrite Habsent).
    assert (Hdec : decide retrieve (Some index) (Some metadata) query
                   = Ok (GroundedPrompt (rag_prompt query (top :: rest))
                           (Some (top :: rest)))).
    { unfold decide. rewrite Hret. eapply kb_decide_grounded; [eassumption|].
      unfold confident. by rewrite threshold_above_zero. }
    repeat split; [done..|]. unfold decide_reply. by rewrite Hdec.
  - intros e He. unfold decide_reply, decide, kb_decide. rewrite Hret, He. done.
Qed.

(** C9.  When the index or the metadata is not loaded, [decide] gives a
    grounded prompt made of the preamble and the query alone, whatever the
    retrieval would return, and the reply is the model's answer with no
    list of sources. *)
Theorem no_index_prompt_is_preamble_and_query
    retrieve generate_content (INDEX : option Index) (METADATA : option Metadata) query :
  INDEX = None ∨ METADATA = None →
  decide retrieve INDEX METADATA query
  = Ok (GroundedPrompt (CULTURE_SYSTEM_PROMPT +:+ NL +:+ NL +:+ "User: " +:+ query) None)
  ∧ decide_reply retrieve generate_content INDEX METADATA query
    = Ok (generate generate_content
            (CULTURE_SYSTEM_PROMPT +:+ NL +:+ NL +:+ "User: " +:+ query) None).
Proof.
  intros Hnone. unfold decide_reply, decide.
  destruct Hnone as [-> | ->]; [|destruct INDEX]; done.
Qed.

(** C10.  When the retrieval returns the empty list, [decide] gives
    [NoResult], the reply is the sentence of line 65 that asks to
    rephrase, and the model is not consulted. *)
Theorem empty_retrieval_no_result retrieve generate_content index metadata query :
  retrieve query index metadata 4 = [] →
  decide retrieve (Some index) (Some metadata) query = Ok (NoResult NO_REFERENCE)
  ∧ decide_reply retrieve generate_content (Some index) (Some metadata) query
    = Ok "I couldn't find a direct reference. Please rephrase or ask for more details.".
Proof.
  intros Hret. unfold decide_reply, decide. rewrite Hret. done.
Qed.


(** C5, as the code has it.  On an entry whose text fields are each a
    [str] or absent, the five locals of lines 70-75 are strings; the short
    answer, the detailed answer and the id are the first candidate that is
    not empty; the source and the risk level are the first candidate that
    is there, empty or not, and so agree with the rule of the first
    non-empty candidate only where no candidate read before the winner
    is an empty string. *)
Theorem normalize_resolution top :
  text_typed top →
  let e := normalize top in
  short_answer e = first_nonempty [top !! "short_answer"; top !! "text"] ""
  ∧ detailed_answer e = first_nonempty [top !! "detailed_answer"; top !! "text"] ""
  ∧ entry_id e = first_nonempty [top !! "id"; top !! "chunk_id"] "unknown"
  ∧ source e = first_present [top !! "source"] "unknown"
  ∧ risk e = first_present [top !! "risk_level"; top !! "risk"] "Info"
  ∧ (top !! "source" ≠ Some (VStr "") →
     source e = first_nonempty [top !! "source"] "unknown")
  ∧ (top !! "risk_level" ≠ Some (VStr "") → top !! "risk" ≠ Some (VStr "") →
     risk e = first_nonempty [top !! "risk_level"; top !! "risk"] "Info")
  ∧ (∃ short detailed id src lvl,
       e = {| short_answer := VStr short; detailed_answer := VStr detailed;
              entry_id := VStr id; source := VStr src; risk := VStr lvl |}).
Proof.
  intros Htyped e.
  assert (Hk : ∀ k, k ∈ text_keys → str_or_absent (top !! k))
    by (intros; by apply text_typed_at).
  assert (Hshort : short_answer e = first_nonempty [top !! "short_answer"; top !! "text"] "").
  { apply or_chain_first_nonempty; apply Hk; unfold text_keys; set_solver. }
  assert (Hdet : detailed_answer e
                 = first_nonempty [top !! "detailed_answer"; top !! "text"] "").
  { apply or_chain_first_nonempty; apply Hk; unfold text_keys; set_solver. }
  assert (Hid : entry_id e = first_nonempty [top !! "id"; top !! "chunk_id"] "unknown").
  { apply or_chain_first_nonempty; apply Hk; unfold text_keys; set_solver. }
  assert (Hsrc : source e = first_present [top !! "source"] "unknown").
  { unfold e, normalize, get_d; simpl. by destruct (top !! "source"). }
  assert (Hrisk : risk e = first_present [top !! "risk_level"; top !! "risk"] "Info").
  { unfold e, normalize, get_d; simpl.
    destruct (top !! "risk_level"); [done|]. by destruct (top !! "risk"). }
  assert (Hs1 : Forall str_or_absent [top !! "source"]).
  { repeat constructor; apply Hk; unfold text_keys; set_solver. }
  assert (Hs2 : Forall str_or_absent [top !! "risk_level"; top !! "risk"]).
  { repeat constructor; apply Hk; unfold text_keys; set_solver. }
  repeat split; try done.
  - intros Hne. rewrite Hsrc. apply first_present_agrees; [|done].
    by repeat constructor.
  - intros Hne1 Hne2. rewrite Hrisk. apply first_present_agrees; [|done].
    by repeat constructor.
  - destruct (first_nonempty_str [top !! "short_answer"; top !! "text"] "")
      as [short Es]; [repeat constructor; apply Hk; unfold text_keys; set_solver|].
    destruct (first_nonempty_str [top !! "detailed_answer"; top !! "text"] "")
      as [detailed Ed]; [repeat constructor; apply Hk; unfold text_keys; set_solver|].
    destruct (first_nonempty_str [top !! "id"; top !! "chunk_id"] "unknown")
      as [id Ei]; [repeat constructor; apply Hk; unfold text_keys; set_solver|].
    assert (∃ src, source e = VStr src) as [src Eo].
    { rewrite Hsrc. inversion_clear Hs1 as [|? ? Ha _]. simpl.
      destruct (top !! "source") as [[| | | |s]|]; simpl in *; try done; eauto. }
    assert (∃ lvl, risk e = VStr lvl) as [lvl El].
    { rewrite Hrisk. inversion_clear Hs2 as [|? ? Ha Hb].
      inversion_clear Hb as [|? ? Hb' _]. simpl.
      destruct (top !! "risk_level") as [[| | | |s]|]; simpl in *; try done; eauto.
      destruct (top !! "risk") as [[| | | |s]|]; simpl in *; try done; eauto. }
    exists short, detailed, id, src, lvl.
    rewrite Es in Hshort. rewrite Ed in Hdet. rewrite Ei in Hid.
    clearbody e. destruct e; simpl in *. congruence.
Qed.


(** *** The direct answer *)

Lemma direct_answer_shape query results text :
  kb_decide query results = Ok (DirectAnswer text) →
  ∃ top rest,
    results = top :: rest
    ∧ ((text = URGENT_BANNER +:+ direct_body (normalize top)
        ∧ ∃ r, r ∈ results ∧ raw_urgent r)
       ∨ (text = direct_body (normalize top)
          ∧ ¬ ∃ r, r ∈ results ∧ raw_urgent r)).
Proof.
  intros Hd. apply kb_decide_direct_inv in Hd
    as (top & rest & score & urgent & -> & _ & _ & Hu & ->).
  exists top, rest. split; [done|]. destruct urgent.
  - left. split; [done|]. by apply any_urgent_true.
  - right. split; [done|]. intros (r & Hr & Hur).
    by apply (any_urgent_false _ Hu r).
Qed.

(** C2, as the code has it.  A direct answer is the banner followed by
    the answer and its citation exactly when some retrieved entry, of
    any rank, has [urgent] in any case under its key [risk_level] or under
    its key [risk]; it is the answer and its citation alone exactly when
    none has. *)
Theorem banner_iff_raw_urgent retrieve index metadata query text :
  let results := retrieve query index metadata 4 in
  decide retrieve (Some index) (Some metadata) query = Ok (DirectAnswer text) →
  ∃ top rest,
    results = top :: rest
    ∧ ((text = URGENT_BANNER +:+ direct_body (normalize top)
        ∧ ∃ r, r ∈ results ∧ raw_urgent r)
       ∨ (text = direct_body (normalize top)
          ∧ ¬ ∃ r, r ∈ results ∧ raw_urgent r)).
Proof. intros results. rewrite decide_loaded. apply direct_answer_shape. Qed.


(** *** The list of sources *)

Lemma source_item_render r : source_item r = render_pair (cite_pair r).
Proof. reflexivity. Qed.

Lemma elem_of_source_items item results :
  item ∈ source_items results ↔ ∃ r, r ∈ results ∧ item = source_item r.
Proof.
  unfold source_items, sorted.
  rewrite merge_sort_Permutation, elem_of_elements, elem_of_list_to_set,
    list_elem_of_fmap.
  split; intros (r & ? & ?); by exists r.
Qed.

Lemma NoDup_source_items results : NoDup (source_items results).
Proof.
  unfold source_items, sorted. rewrite merge_sort_Permutation.
  apply NoDup_elements.
Qed.

Lemma Sorted_source_items results : Sorted String.le (source_items results).
Proof. unfold source_items, sorted. apply Sorted_merge_sort, _. Qed.

Lemma source_items_same_pairs results results' :
  (∀ p, p ∈ cite_pair <$> results ↔ p ∈ cite_pair <$> results') →
  source_items results' = source_items results.
Proof.
  intros Hsame. unfold source_items. f_equal. apply set_eq. intros item.
  rewrite !elem_of_list_to_set, !list_elem_of_fmap.
  split; intros (r & -> & Hr).
  - assert (Hin : cite_pair r ∈ cite_pair <$> results)
      by (apply Hsame, list_elem_of_fmap; eauto).
    apply list_elem_of_fmap in Hin as (r' & Hp & Hr').
    exists r'. split; [|done]. by rewrite !source_item_render, Hp.
  - assert (Hin : cite_pair r ∈ cite_pair <$> results')
      by (apply Hsame, list_elem_of_fmap; eauto).
    apply list_elem_of_fmap in Hin as (r' & Hp & Hr').
    exists r'. split; [|done]. by rewrite !source_item_render, Hp.
Qed.

(** C7, as the code has it.  The sources of a grounded reply are the
    items [source (ID id)] of the retrieved entries joined by a comma
    and a space, in ascending order of their text and with no item
    twice: one item for each distinct text, so that two entries whose
    fields differ and render alike share one.  Two lists of entries with
    the same pairs of source and id, in any order, give the same text. *)
Theorem sources_sorted_without_repeats results :
  sources results = join ", " (source_items results)
  ∧ NoDup (source_items results)
  ∧ Sorted String.le (source_items results)
  ∧ (∀ item, item ∈ source_items results
             ↔ ∃ r, r ∈ results ∧ item = render_pair (cite_pair r))
  ∧ (∀ results',
       (∀ p, p ∈ cite_pair <$> results ↔ p ∈ cite_pair <$> results') →
       sources results' = sources results).
Proof.
  split; [done|]. split; [apply NoDup_source_items|].
  split; [apply Sorted_source_items|]. split.
  - intros item. apply elem_of_source_items.
  - intros results' Hsame. unfold sources.
    by rewrite (source_items_same_pairs _ _ Hsame).
Qed.


(** *** Citations *)

Lemma str_app_assoc (a b c : string) : (a +:+ b) +:+ c = a +:+ b +:+ c.
Proof.
  induction a as [|x a IH]; [done|].
  change (String x ((a +:+ b) +:+ c) = String x (a +:+ b +:+ c)). by f_equal.
Qed.


Lemma entry_id_filled top :
  text_typed top → ∃ id, entry_id (normalize top) = VStr id ∧ id ≠ "".
Proof.
  intros Htyped.
  assert (Hid : entry_id (normalize top)
                = first_nonempty [top !! "id"; top !! "chunk_id"] "unknown").
  { apply or_chain_first_nonempty; apply text_typed_at; try done;
      unfold text_keys; set_solver. }
  destruct (first_nonempty_str [top !! "id"; top !! "chunk_id"] "unknown")
    as [id Ei].
  { repeat constructor; apply text_typed_at; try done; unfold text_keys; set_solver. }
  exists id. split; [congruence|].
  eapply (first_nonempty_filled _ "unknown"); [done|exact Ei].
Qed.

Lemma source_resolved r :
  text_typed r →
  ∃ src, get_d r "source" (VStr "unknown") = VStr src
         ∧ (r !! "source" = None → src = "unknown")
         ∧ (r !! "source" ≠ Some (VStr "") → src ≠ "").
Proof.
  intros Htyped.
  assert (Hs : str_or_absent (r !! "source"))
    by (apply text_typed_at; [done|unfold text_keys; set_solver]).
  unfold get_d. destruct (r !! "source") as [[| | | |s]|]; simpl in *; try done.
  - exists s. repeat split; [done|]. intros Hne ->. done.
  - exists "unknown". done.
Qed.

Lemma list_id_resolved r :
  text_typed r →
  ∃ id, get_d r "id" (get_d r "chunk_id" (VStr "?")) = VStr id
        ∧ (r !! "id" = None → r !! "chunk_id" = None → id = "?")
        ∧ (r !! "id" ≠ Some (VStr "") → r !! "chunk_id" ≠ Some (VStr "") → id ≠ "").
Proof.
  intros Htyped.
  assert (Hi : str_or_absent (r !! "id"))
    by (apply text_typed_at; [done|unfold text_keys; set_solver]).
  assert (Hc : str_or_absent (r !! "chunk_id"))
    by (apply text_typed_at; [done|unfold text_keys; set_solver]).
  unfold get_d. destruct (r !! "id") as [[| | | |s]|]; simpl in *; try done.
  - exists s. repeat split; [done|]. intros Hne _ ->. done.
  - destruct (r !! "chunk_id") as [[| | | |s]|]; simpl in *; try done.
    + exists s. repeat split; [done|]. intros _ Hne ->. done.
    + exists "?". done.
Qed.

(** C6, as the code has it.  On entries whose text fields are each a
    [str] or absent, the citation line of a direct answer names an id that
    is never empty and a source that is [unknown] when the entry has none;
    every item of the sources list is [source (ID id)] for a retrieved
    entry, its source read the same way and its id the question mark when
    the entry has neither id nor chunk id.  A source that is the empty
    string is cited as it is. *)
Theorem citations_resolve_source_and_id results :
  Forall text_typed results →
  (∀ query text,
     kb_decide query results = Ok (DirectAnswer text) →
     ∃ top rest lead src id,
       results = top :: rest
       ∧ text = lead +:+ "Source: [" +:+ src +:+ " | ID:" +:+ id +:+ "]"
       ∧ source (normalize top) = VStr src
       ∧ entry_id (normalize top) = VStr id
       ∧ id ≠ ""
       ∧ (top !! "source" = None → src = "unknown")
       ∧ (top !! "source" ≠ Some (VStr "") → src ≠ ""))
  ∧ (∀ item,
       item ∈ source_items results →
       ∃ r src id,
         r ∈ results
         ∧ cite_pair r = (VStr src, VStr id)
         ∧ item = src +:+ " (ID " +:+ id +:+ ")"
         ∧ (r !! "source" = None → src = "unknown")
         ∧ (r !! "source" ≠ Some (VStr "") → src ≠ "")
         ∧ (r !! "id" = None → r !! "chunk_id" = None → id = "?")
         ∧ (r !! "id" ≠ Some (VStr "") → r !! "chunk_id" ≠ Some (VStr "") → id ≠ "")).
Proof.
  intros Htyped. split.
  - intros query text Hd.
    apply kb_decide_direct_inv in Hd
      as (top & rest & score & urgent & -> & _ & _ & _ & ->).
    apply Forall_cons in Htyped as [Htop _].
    destruct (entry_id_filled top Htop) as (id & Hid & Hfilled).
    destruct (source_resolved top Htop) as (src & Hsrc & Habsent & Hkept).
    exists top, rest,
      ((if urgent then URGENT_BANNER else "")
         +:+ to_str (short_answer (normalize top)) +:+ NL +:+ NL),
      src, id.
    repeat split; try done.
    unfold direct_body. rewrite Hid. change (source (normalize top))
      with (get_d top "source" (VStr "unknown")). rewrite Hsrc. simpl to_str.
    by rewrite !str_app_assoc.
  - intros item Hitem. apply elem_of_source_items in Hitem as (r & Hr & ->).
    assert (Hrt : text_typed r) by (rewrite Forall_forall in Htyped; auto).
    destruct (source_resolved r Hrt) as (src & Hsrc & Habsent & Hkept).
    destruct (list_id_resolved r Hrt) as (id & Hid & Hnone & Hfilled).
    exists r, src, id. unfold cite_pair, source_item. rewrite Hsrc, Hid.
    repeat split; done.
Qed.

(** *** The context block *)





End properties.


(** ** The claims on examples *)


(** The fourth end-to-end example: no direct answer without a short
    answer, however high the score. *)
Example empty_short_answer_falls_through :
  ∀ rt : PyRuntime,
    decide (H := rt) (fixed_retrieve [ex_no_short]) (Some ()) (Some ()) "How do I cope?"
    = Ok (GroundedPrompt (rag_prompt (H := rt) "How do I cope?" [ex_no_short])
            (Some [ex_no_short])).
Proof. intros rt. vm_compute. reflexivity. Qed.

(** C2 against the code: the entry has the risk level [Info], under the
    resolution of line 75 and under that of the specification, and its
    direct answer carries the banner, under every runtime. *)
Lemma banner_without_urgent_level :
  risk (normalize ex_two_risks) = VStr "Info"
  ∧ risk (spec_normalize ex_two_risks) = VStr "Info"
  ∧ ∀ (rt : PyRuntime) (model : string → gen_outcome),
      decide_reply (H := rt) (fixed_retrieve [ex_two_risks]) model (Some ()) (Some ())
        "What now?"
      = Ok (URGENT_BANNER +:+ "Rest." +:+ NL +:+ NL
              +:+ "Source: [unknown | ID:unknown]").
Proof.
  split; [vm_compute; reflexivity|]. split; [vm_compute; reflexivity|].
  intros rt model. vm_compute. reflexivity.
Qed.

(** C2 on the second end-to-end example: the entry is marked [Urgent]
    and the answer carries the banner. *)
Lemma urgent_example_has_banner :
  decide (H := stub_runtime) (fixed_retrieve [ex_urgent]) (Some ()) (Some ())
    "How do I cope?"
  = Ok (DirectAnswer
          (URGENT_BANNER +:+ "Be patient." +:+ NL +:+ NL
             +:+ "Source: [Quran-Tafsir | ID:A1]"))
  ∧ ∃ top rest,
      fixed_retrieve [ex_urgent] "How do I cope?" () () 4 = top :: rest
      ∧ ((URGENT_BANNER +:+ "Be patient." +:+ NL +:+ NL
            +:+ "Source: [Quran-Tafsir | ID:A1]"
          = URGENT_BANNER +:+ direct_body (H := stub_runtime) (normalize top)
          ∧ ∃ r, r ∈ fixed_retrieve [ex_urgent] "How do I cope?" () () 4
                 ∧ raw_urgent r)
         ∨ (URGENT_BANNER +:+ "Be patient." +:+ NL +:+ NL
              +:+ "Source: [Quran-Tafsir | ID:A1]"
            = direct_body (H := stub_runtime) (normalize top)
            ∧ ¬ ∃ r, r ∈ fixed_retrieve [ex_urgent] "How do I cope?" () () 4
                     ∧ raw_urgent r)).
Proof.
  assert (Hd : decide (H := stub_runtime) (fixed_retrieve [ex_urgent]) (Some ())
                 (Some ()) "How do I cope?"
               = Ok (DirectAnswer
                       (URGENT_BANNER +:+ "Be patient." +:+ NL +:+ NL
                          +:+ "Source: [Quran-Tafsir | ID:A1]")))
    by (vm_compute; reflexivity).
  split; [exact Hd|].
  exact (banner_iff_raw_urgent (H := stub_runtime) (fixed_retrieve [ex_urgent])
           () () "How do I cope?" _ Hd).
Defined.


(** C4 against the code: a score that is [None] is not read as 0.0; the
    [TypeError] of [float] leaves [decide_reply], under every runtime and
    whatever the model. *)
Lemma none_score_raises :
  ex_none_score !! "score" = Some VNone
  ∧ ∀ (rt : PyRuntime) (model : string → gen_outcome),
      decide_reply (H := rt) (fixed_retrieve [ex_none_score]) model (Some ()) (Some ())
        "How do I cope?"
      = Raise TypeError.
Proof.
  split; [vm_compute; reflexivity|]. intros rt model. vm_compute. reflexivity.
Qed.

(** C4 on an entry without a score: the model is asked and its answer
    is returned with the sources. *)
Lemma missing_score_example :
  ex_no_score !! "score" = None
  ∧ decide_reply (H := stub_runtime) (fixed_retrieve [ex_no_score]) ex_model
      (Some ()) (Some ()) "How do I cope?"
    = Ok ("Have patience." +:+ NL +:+ NL +:+ "Sources: Quran-Tafsir (ID A1)").
Proof.
  assert (Habsent : ex_no_score !! "score" = None) by (vm_compute; reflexivity).
  split; [exact Habsent|].
  destruct (absent_score_reads_zero (H := stub_runtime) (fixed_retrieve [ex_no_score])
              ex_model () () "How do I cope?" ex_no_score [] eq_refl) as [Hzero _].
  destruct (Hzero Habsent) as (_ & _ & ->). vm_compute. reflexivity.
Defined.

(** C5 against the code: a source that is the empty string stays empty,
    where the rule of the first non-empty candidate gives [unknown]. *)
Lemma empty_source_not_defaulted :
  text_typed ex_empty_source
  ∧ source (normalize ex_empty_source) = VStr ""
  ∧ source (spec_normalize ex_empty_source) = VStr "unknown".
Proof.
  split; [typed_example|]. split; vm_compute; reflexivity.
Qed.

(** C5 on an entry of the other ingestion path: the chunk id stands for
    the id and the text for the short answer. *)
Lemma chunk_fields_example :
  text_typed ex_chunk
  ∧ entry_id (normalize ex_chunk) = VStr "c7"
  ∧ short_answer (normalize ex_chunk) = VStr "Patience is rewarded.".
Proof.
  assert (Htyped : text_typed ex_chunk) by typed_example.
  split; [exact Htyped|].
  destruct (normalize_resolution ex_chunk Htyped) as (-> & _ & -> & _).
  split; vm_compute; reflexivity.
Defined.

(** C6 against the code: the citation line of a direct answer with an
    empty source, under every runtime and whatever the model. *)
Lemma empty_source_is_cited :
  text_typed ex_empty_source
  ∧ ∀ (rt : PyRuntime) (model : string → gen_outcome),
      decide_reply (H := rt) (fixed_retrieve [ex_empty_source]) model (Some ()) (Some ())
        "How do I cope?"
      = Ok ("Be patient." +:+ NL +:+ NL +:+ "Source: [ | ID:A1]").
Proof.
  split; [typed_example|]. intros rt model. vm_compute. reflexivity.
Qed.

(** C6 on an entry with neither source nor id: its item in the sources
    list. *)
Lemma bare_entry_item_example :
  Forall text_typed [ex_bare]
  ∧ ∃ r src id,
      r ∈ [ex_bare]
      ∧ cite_pair r = (VStr src, VStr id)
      ∧ "unknown (ID ?)" = src +:+ " (ID " +:+ id +:+ ")"
      ∧ (r !! "source" = None → src = "unknown")
      ∧ (r !! "source" ≠ Some (VStr "") → src ≠ "")
      ∧ (r !! "id" = None → r !! "chunk_id" = None → id = "?")
      ∧ (r !! "id" ≠ Some (VStr "") → r !! "chunk_id" ≠ Some (VStr "") → id ≠ "").
Proof.
  assert (Htyped : Forall text_typed [ex_bare]) by typed_example.
  split; [exact Htyped|].
  apply (proj2 (citations_resolve_source_and_id (H := stub_runtime) [ex_bare] Htyped)).
  vm_compute. left.
Defined.

(** C7 against the code: two entries with different pairs of source and
    id, and one item for the two, under every runtime. *)
Lemma alike_cited_pairs_share_an_item :
  cite_pair ex_left ≠ cite_pair ex_right
  ∧ ∀ rt : PyRuntime,
      source_items (H := rt) [ex_left; ex_right] = ["a (ID b (ID c)"]
      ∧ sources (H := rt) [ex_left; ex_right] = "a (ID b (ID c)".
Proof.
  split.
  - intros Heq. vm_compute in Heq. discriminate.
  - intros rt. split; vm_compute; reflexivity.
Qed.



(** C9 with no index: the retrieval would return a confident entry,
    and is not asked. *)
Lemma no_index_example :
  decide (H := stub_runtime) (fixed_retrieve [ex_patient]) None (Some ())
    "How do I cope?"
  = Ok (GroundedPrompt
          (CULTURE_SYSTEM_PROMPT +:+ NL +:+ NL +:+ "User: " +:+ "How do I cope?") None)
  ∧ decide_reply (H := stub_runtime) (fixed_retrieve [ex_patient]) ex_model None
      (Some ()) "How do I cope?"
    = Ok "Have patience.".
Proof.
  destruct (no_index_prompt_is_preamble_and_query (H := stub_runtime)
              (fixed_retrieve [ex_patient]) ex_model None (Some ()) "How do I cope?"
              (or_introl eq_refl)) as [Hd Hr].
  split; [exact Hd|]. rewrite Hr. vm_compute. reflexivity.
Defined.

(** C10 with an empty retrieval. *)
Lemma empty_retrieval_example :
  decide_reply (H := stub_runtime) (fixed_retrieve []) ex_model (Some ()) (Some ())
    "How do I cope?"
  = Ok "I couldn't find a direct reference. Please rephrase or ask for more details.".
Proof.
  exact (proj2 (empty_retrieval_no_result (H := stub_runtime) (fixed_retrieve [])
                  ex_model () () "How do I cope?" eq_refl)).
Defined.

(** ** The rest of [decide_reply]: exceptions, the urgency scan, the score *)

Section coverage.
Context `{!PyRuntime} {Index Metadata : Type}.
Implicit Types (retrieve : string → Index → Metadata → nat → list (gmap string pyval)).
Implicit Types (generate_content : string → gen_outcome).

Lemma py_float_raise v e :
  py_float v = Raise e → e = TypeError ∨ e = ValueError ∨ e = OverflowError.
Proof.
  destruct v as [| b | z | f | s]; simpl; try discriminate.
  - intros [= <-]. by left.
  - unfold float_of_int. destruct (binary_normalize 53 1024 z 0 false);
      try discriminate. intros [= <-]. by right; right.
  - destruct (float_of_str s); [discriminate|]. intros [= <-]. by right; left.
Qed.

Lemma is_urgent_raise r e :
  is_urgent r = Raise e → e = AttributeError ∧ ¬ risk_typed r.
Proof.
  unfold is_urgent, risk_typed, get_d.
  destruct (r !! "risk_level") as [[| | | |a]|]; simpl;
    try (intros [= <-]; split; [done|by intros [[] _]]).
  - destruct (String.eqb (lower a) "urgent"); [discriminate|].
    destruct (r !! "risk") as [[| | | |b]|]; simpl; try discriminate;
      intros [= <-]; split; try done; by intros [_ []].
  - destruct (r !! "risk") as [[| | | |b]|]; simpl; try discriminate;
      intros [= <-]; split; try done; by intros [_ []].
Qed.

Lemma py_any_app {A : Type} (f : A → result bool) l1 l2 :
  py_any f (l1 ++ l2)%list
  = match py_any f l1 with
    | Ok false => py_any f l2
    | other => other
    end.
Proof.
  induction l1 as [|x l1 IH]; simpl; [done|].
  destruct (f x) as [[|]|]; simpl; done.
Qed.



(** When the urgency scan of line 81 raises, the exception is an
    [AttributeError] and comes from an entry one of whose two risk fields
    is not text, all the entries ranked before it being inspected and not
    urgent. *)
Theorem urgency_scan_error_cause (results : list (gmap string pyval)) e :
  py_any is_urgent results = Raise e →
  e = AttributeError
  ∧ ∃ before r after,
      results = (before ++ r :: after)%list
      ∧ Forall (λ x, risk_typed x ∧ ¬ raw_urgent x) before
      ∧ ¬ risk_typed r.
Proof.
  induction results as [|x l IH]; simpl; [discriminate|].
  destruct (is_urgent x) as [[|]|e'] eqn:Hx; simpl; try discriminate.
  - intros Hl. destruct (IH Hl) as (-> & before & r & after & -> & Hb & Hr).
    split; [done|]. exists (x :: before), r, after. repeat split; try done.
    constructor; [|done]. split; [|by apply is_urgent_false].
    destruct (risk_typed_dec x) as [|Hn]; [done|].
    unfold is_urgent, risk_typed, get_d in *.
    destruct (x !! "risk_level") as [[| | | |a]|]; simpl in *; try discriminate;
      destruct (x !! "risk") as [[| | | |b]|]; simpl in *;
      try destruct (String.eqb (lower a) "urgent"); try discriminate;
      by destruct Hn.
  - intros [= <-]. apply is_urgent_raise in Hx as [-> Hr].
    split; [done|]. by exists [], x, l.
Qed.



(** The urgency scan stops at the first urgent entry.  In the
    high-confidence branch, once an entry whose key [risk_level] holds
    text is urgent and the entries ranked before it have text risk
    fields, the answer carries the banner, whatever the entries ranked
    after it hold. *)
Theorem urgent_entry_shields_later_entries query top rest score before r after :
  py_float (get_d top "score" (VFloat 0%float)) = Ok score →
  confident score (normalize top) = true →
  top :: rest = (before ++ r :: after)%list →
  Forall risk_typed before →
  str_or_absent (r !! "risk_level") →
  raw_urgent r →
  kb_decide query (top :: rest)
  = Ok (DirectAnswer (URGENT_BANNER +:+ direct_body (normalize top))).
Proof.
  intros Hs Hc Hsplit Hbefore Hlevel Hr.
  assert (Hscan : py_any is_urgent (top :: rest) = Ok true).
  { rewrite Hsplit, py_any_app.
    destruct (any_urgent_typed _ Hbefore) as [[|] ->]; [done|]. simpl.
    assert (Hu : is_urgent r = Ok true); [|by rewrite Hu].
    unfold is_urgent, raw_urgent, field_urgent, get_d in *.
    destruct (r !! "risk_level") as [[| | | |a]|]; simpl in *; try done.
    - destruct (String.eqb_spec (lower a) "urgent") as [|Hn]; [done|].
      destruct Hr as [|Hr]; [done|].
      destruct (r !! "risk") as [[| | | |b]|]; simpl in *; try done.
      by rewrite Hr.
    - destruct Hr as [|Hr]; [done|].
      destruct (r !! "risk") as [[| | | |b]|]; simpl in *; try done.
      by rewrite Hr. }
  by erewrite kb_decide_direct by eassumption.
Qed.

Lemma leb_nan_r (x f : float) : PrimFloat.is_nan f = true → PrimFloat.leb x f = false.
Proof.
  unfold PrimFloat.is_nan. rewrite negb_true_iff, FloatAxioms.eqb_spec, leb_spec.
  unfold SFeqb, SFleb. destruct (Prim2SF f) as [s | s | | s m e]; simpl.
  - discriminate.
  - by destruct s.
  - intros _. by destruct (Prim2SF x).
  - rewrite Z.compare_refl, Pos.compare_cont_refl. by destruct s.
Qed.

(** A score that is not a number is never confident: the low-confidence
    branch is taken, whatever the short answer. *)
Theorem nan_score_is_not_confident query top rest f :
  top !! "score" = Some (VFloat f) →
  PrimFloat.is_nan f = true →
  kb_decide query (top :: rest)
  = Ok (GroundedPrompt (rag_prompt query (top :: rest)) (Some (top :: rest))).
Proof.
  intros Hf Hnan. eapply (kb_decide_grounded _ _ _ f).
  - unfold get_d. by rewrite Hf.
  - unfold confident. by rewrite leb_nan_r.
Qed.


(** *** The response of the model *)

(** Whatever text [reply_text] extracts is the apology of lines 58 and
    100, or the stripped form of a non-empty [str] the response holds: its
    text, or, when [getattr] gives for the text a value that is not truthy
    ([None] for a text that is absent or whose getter raises
    [AttributeError], an empty text, a falsy object), the content of its
    first candidate. *)
Theorem reply_text_sound (resp : response) (out : string) :
  reply_text resp = Fine out →
  out = NO_ANSWER
  ∨ ∃ s,
      s ≠ "" ∧ out = str_strip s
      ∧ (resp_text resp = Value (Some (CStr s))
         ∨ ((∃ t, getattr (resp_text resp) = Fine t ∧ content_truthy t = false)
            ∧ ∃ c cs, resp_candidates resp = Some (c :: cs)
                      ∧ cand_content c = Value (Some (CStr s)))).
Proof.
  assert (Hread : ∀ a s, getattr a = Fine (Some (CStr s)) → a = Value (Some (CStr s))).
  { intros [|v| |msg] s; simpl; congruence. }
  assert (Hfinal : ∀ t : option content,
            match t with
            | None => Fine NO_ANSWER
            | Some c => if content_truthy (Some c) then strip_content c else Fine NO_ANSWER
            end = Fine out →
            out = NO_ANSWER
            ∨ ∃ s, s ≠ "" ∧ out = str_strip s ∧ t = Some (CStr s)).
  { intros [[s|truthy msg]|]; simpl.
    - destruct (String.eqb_spec s ""); simpl; intros [= <-]; [by left|].
      right. by exists s.
    - destruct truthy; [discriminate|]. intros [= <-]. by left.
    - intros [= <-]. by left. }
  destruct resp as [txt cands]. unfold reply_text. simpl.
  destruct (getattr txt) as [t|msg] eqn:Htxt; [|discriminate].
  destruct (content_truthy t) eqn:Ht.
  - intros Hout. destruct (Hfinal t Hout) as [|(s & Hs & -> & ->)]; [by left|].
    right. exists s. repeat split; try done. left. by apply Hread.
  - destruct cands as [[|c cs]|].
    + intros Hout. destruct (Hfinal t Hout) as [|(s & Hs & -> & ->)]; [by left|].
      simpl in Ht. by rewrite (proj2 (String.eqb_neq s "") Hs) in Ht.
    + destruct (getattr (cand_content c)) as [t'|msg] eqn:Hc; [|discriminate].
      intros Hout. destruct (Hfinal t' Hout) as [|(s & Hs & -> & ->)]; [by left|].
      right. exists s. repeat split; try done. right.
      split; [by exists t|]. exists c, cs. split; [done|]. by apply Hread.
    + intros Hout. destruct (Hfinal t Hout) as [|(s & Hs & -> & ->)]; [by left|].
      simpl in Ht. by rewrite (proj2 (String.eqb_neq s "") Hs) in Ht.
Qed.

(** [reply_text] reads the text and, only when the text is absent,
    [None] or empty, the first candidate: with a text that is truthy the
    candidates do not matter, the candidates past the first never do, and
    an empty list of candidates counts as none. *)
Theorem reply_text_reads_first_candidate_only :
  (∀ t cands cands',
     content_truthy t = true →
     reply_text {| resp_text := Value t; resp_candidates := cands |}
     = reply_text {| resp_text := Value t; resp_candidates := cands' |})
  ∧ (∀ txt c cs cs',
       reply_text {| resp_text := txt; resp_candidates := Some (c :: cs) |}
       = reply_text {| resp_text := txt; resp_candidates := Some (c :: cs') |})
  ∧ (∀ txt,
       reply_text {| resp_text := txt; resp_candidates := Some [] |}
       = reply_text {| resp_text := txt; resp_candidates := None |}).
Proof.
  split; [|split].
  - intros t cands cands' Ht. unfold reply_text. simpl. by rewrite Ht.
  - intros txt c cs cs'. unfold reply_text. simpl. by destruct (getattr txt).
  - intros txt. unfold reply_text. simpl. by destruct (getattr txt).
Qed.

(** The reply to a query answered from the knowledge base through the
    model is an error report, for an exception of the call or of the
    reading of the response, or the extracted text followed by the list
    of sources: the sources are never attached to an error report and
    always to a text, the apology included. *)
Theorem grounded_reply_cites_or_reports retrieve generate_content
    (INDEX : option Index) (METADATA : option Metadata) query prompt results :
  decide retrieve INDEX METADATA query = Ok (GroundedPrompt prompt (Some results)) →
  ∃ reply,
    decide_reply retrieve generate_content INDEX METADATA query = Ok reply
    ∧ ((∃ msg,
          reply = "Error contacting model: " +:+ msg
          ∧ (generate_content prompt = GenRaise msg
             ∨ ∃ resp, generate_content prompt = GenOk resp
                       ∧ reply_text resp = Exc msg))
       ∨ (∃ resp final,
            generate_content prompt = GenOk resp
            ∧ reply_text resp = Fine final
            ∧ reply = final +:+ NL +:+ NL +:+ "Sources: " +:+ sources results)).
Proof.
  intros Hd. unfold decide_reply. rewrite Hd. cbn [rbind].
  eexists. split; [done|]. unfold generate.
  destruct (generate_content prompt) as [msg|resp] eqn:Hg.
  - left. exists msg. split; [done|]. by left.
  - destruct (reply_text resp) as [final|msg] eqn:Hr.
    + right. by exists resp, final.
    + left. exists msg. split; [done|]. right. by exists resp.
Qed.

(** When [getattr] gives for the text of the response a value that is
    not truthy and the content of the first candidate is an object that is
    no [str], the reply depends on the truth value of the object: a truthy
    one gives the error report with the message of the exception its
    [strip] raises, and no sources; a falsy one gives the apology, with
    the sources when the query was answered from the knowledge base. *)
Theorem object_content_is_reported generate_content prompt results txt t truthy msg cs :
  getattr txt = Fine t →
  content_truthy t = false →
  generate_content prompt
  = GenOk {| resp_text := txt;
             resp_candidates :=
               Some ({| cand_content := Value (Some (CObj truthy msg)) |} :: cs) |} →
  generate generate_content prompt results
  = if truthy then "Error contacting model: " +:+ msg
    else match results with
         | None => NO_ANSWER
         | Some results => NO_ANSWER +:+ NL +:+ NL +:+ "Sources: " +:+ sources results
         end.
Proof.
  intros Htxt Ht Hg. unfold generate, reply_text. rewrite Hg. simpl.
  rewrite Htxt, Ht. simpl. by destruct truthy.
Qed.

(** *** The size of the list of sources *)

(** The list of sources has at most one item for each retrieved entry,
    and at least one when an entry was retrieved. *)
Theorem source_items_bounded (results : list (gmap string pyval)) :
  (length (source_items results) ≤ length results)%nat
  ∧ (results ≠ [] → source_items results ≠ []).
Proof.
  split.
  - rewrite <- (length_fmap source_item results). apply submseteq_length.
    apply NoDup_submseteq; [apply NoDup_source_items|].
    intros item Hitem. apply elem_of_source_items in Hitem as (r & Hr & ->).
    apply list_elem_of_fmap. by exists r.
  - destruct results as [|r l]; [done|]. intros _ Hnil.
    assert (Hin : source_item r ∈ source_items (r :: l)).
    { apply elem_of_source_items. exists r. split; [left|done]. }
    rewrite Hnil in Hin. inversion Hin.
Qed.


(** *** The chat callback *)

(** [_on_submit] changes the history only at its end and by one exchange
    at most: the stripped input, which is then not empty, and the reply
    [decide_reply] returned for it. *)
Theorem submit_grows_history_at_end retrieve generate_content
    (INDEX : option Index) (METADATA : option Metadata) (st : session_state) :
  let st' := (_on_submit retrieve generate_content INDEX METADATA st).1 in
  let h := default [] (history st) in
  default [] (history st') = h
  ∨ ∃ query reply,
      query = str_strip (default "" (user_input st))
      ∧ query ≠ ""
      ∧ decide_reply retrieve generate_content INDEX METADATA query = Ok reply
      ∧ default [] (history st') = (h ++ [(query, reply)])%list.
Proof.
  unfold _on_submit.
  destruct (String.eqb_spec (str_strip (default "" (user_input st))) "") as [|Hq];
    [by left|].
  destruct (decide_reply _ _ _ _ _) as [reply|e] eqn:Hd; simpl; [|by left].
  right. eexists _, reply. done.
Qed.

(** An input that is empty once stripped is not submitted: the history
    and the input box stay as they are, the warning flag is set when it
    was not, and the result is the same whatever the index, the retrieval
    and the model, none of which is consulted. *)
Theorem submit_blank_consults_nothing retrieve generate_content
    (INDEX : option Index) (METADATA : option Metadata) (st : session_state) :
  str_strip (default "" (user_input st)) = "" →
  _on_submit retrieve generate_content INDEX METADATA st
  = ({| user_input := user_input st; history := history st;
        _show_warning := Some (default true (_show_warning st)) |}, Ok ()).
Proof. intros Hq. unfold _on_submit. by rewrite Hq. Qed.

(** When [decide_reply] raises, [_on_submit] lets the exception through
    and the submission leaves no trace: no exchange is recorded, the
    input box keeps the text and the warning flag is as before. *)
Theorem submit_failure_keeps_input retrieve generate_content
    (INDEX : option Index) (METADATA : option Metadata) (st : session_state) e :
  (_on_submit retrieve generate_content INDEX METADATA st).2 = Raise e →
  let st' := (_on_submit retrieve generate_content INDEX METADATA st).1 in
  decide_reply retrieve generate_content INDEX METADATA
    (str_strip (default "" (user_input st))) = Raise e
  ∧ user_input st' = user_input st
  ∧ default [] (history st') = default [] (history st)
  ∧ _show_warning st' = _show_warning st.
Proof.
  unfold _on_submit.
  destruct (String.eqb (str_strip (default "" (user_input st))) ""); [discriminate|].
  destruct (decide_reply _ _ _ _ _) as [reply|e'] eqn:Hd; simpl; [discriminate|].
  by intros [= <-].
Qed.

(** After a submission that got a reply, the input box is empty, the
    warning flag is gone, and the display of the history is the display
    before it followed by the block of the stripped question and the block
    of the reply. *)
Theorem submit_success_shows_exchange retrieve generate_content
    (INDEX : option Index) (METADATA : option Metadata) (st : session_state) reply :
  let query := str_strip (default "" (user_input st)) in
  query ≠ "" →
  decide_reply retrieve generate_content INDEX METADATA query = Ok reply →
  let st' := (_on_submit retrieve generate_content INDEX METADATA st).1 in
  user_input st' = Some ""
  ∧ _show_warning st' = None
  ∧ display_history (default [] (history st'))
    = (display_history (default [] (history st))
         ++ [user_block query; bot_block reply])%list.
Proof.
  intros query Hq Hd. unfold _on_submit. fold query.
  rewrite (proj2 (String.eqb_neq query "") Hq), Hd. simpl.
  repeat split. unfold display_history. by rewrite flat_map_app.
Qed.

(** Submitting again without typing adds nothing: after a submission that
    did not raise, a second one leaves the history as the first left it
    and sets the warning flag (the empty string being empty once
    stripped). *)
Theorem resubmit_adds_nothing retrieve generate_content
    (INDEX : option Index) (METADATA : option Metadata) (st : session_state) :
  str_strip "" = "" →
  let first := _on_submit retrieve generate_content INDEX METADATA st in
  first.2 = Ok () →
  let second := _on_submit retrieve generate_content INDEX METADATA first.1 in
  second.2 = Ok ()
  ∧ history second.1 = history first.1
  ∧ user_input second.1 = user_input first.1
  ∧ is_Some (_show_warning second.1).
Proof.
  intros Hempty. unfold _on_submit at 1 2.
  destruct (String.eqb_spec (str_strip (default "" (user_input st))) "") as [Hq|Hq].
  - intros _. unfold _on_submit. simpl. rewrite Hq. simpl. eauto.
  - destruct (decide_reply _ _ _ _ _) as [reply|e]; simpl; [|discriminate].
    intros _. unfold _on_submit. simpl. rewrite Hempty. simpl. eauto.
Qed.

(** *** The display of the history *)

(** The history is displayed in its order, two blocks for each exchange:
    the block of the question and, after it, the block of the reply. *)
Theorem display_history_in_order (h : list (string * string)) :
  length (display_history h) = (2 * length h)%nat
  ∧ ∀ i u b,
      h !! i = Some (u, b) →
      display_history h !! (2 * i)%nat = Some (user_block u)
      ∧ display_history h !! (2 * i + 1)%nat = Some (bot_block b).
Proof.
  split.
  - induction h as [|ub h IH]; simpl; [done|]. rewrite IH. lia.
  - induction h as [|ub h IH]; intros i u b Hi; [done|].
    destruct i as [|i]; simpl in *.
    + by injection Hi as ->.
    + replace (i + S (i + 0))%nat with (S (2 * i)) by lia. simpl.
      destruct (IH i u b Hi) as [Hu Hb]. split; [done|].
      by replace (i + (i + 0) + 1)%nat with (2 * i + 1)%nat by lia.
Qed.

(** *** The index *)

(** After the start of the script, a query is answered from the
    knowledge base exactly when [load_index] returned both an index and
    metadata; when it raised, or returned [None] for either, every query
    gets the prompt without knowledge, and a load that raised leaves no
    message in the sidebar. *)
Theorem startup_uses_index_iff_both_loaded
    (load : caught (option Index * option Metadata)) retrieve query :
  let kb := (load_at_start load).1 in
  ((∃ index metadata,
      load = Fine (Some index, Some metadata)
      ∧ decide retrieve kb.1 kb.2 query
        = kb_decide query (retrieve query index metadata 4))
   ∨ ((∀ index metadata, load ≠ Fine (Some index, Some metadata))
      ∧ decide retrieve kb.1 kb.2 query
        = Ok (GroundedPrompt
                (CULTURE_SYSTEM_PROMPT +:+ NL +:+ NL +:+ "User: " +:+ query) None)))
  ∧ (∀ msg, load = Exc msg → (load_at_start load).2 = []).
Proof.
  split.
  - destruct load as [[[index|] [metadata|]]|msg]; simpl;
      try (right; split; [congruence|done]).
    left. by exists index, metadata.
  - by intros msg ->.
Qed.

(** A click on the import button replaces the index and the metadata
    together, and only when the file is there, [ingest_csv] returned and
    [load_index] returned: otherwise both stay as they were and the last
    message of the sidebar is an error. *)
Theorem import_keeps_index_unless_loaded (csv_exists : bool) (ingest : caught unit)
    (load : caught (option Index * option Metadata))
    (kb : option Index * option Metadata) :
  let after := import_csv_clicked csv_exists ingest load kb in
  (after.1 = kb ∧ ∃ msg, last after.2 = Some (sidebar_error msg))
  ∨ (csv_exists = true ∧ ingest = Fine () ∧ load = Fine after.1
     ∧ last after.2 = Some (sidebar_success "CSV ingested and index built.")).
Proof.
  unfold import_csv_clicked.
  destruct csv_exists; [|left; eauto].
  destruct ingest as [[]|msg]; [|left; eauto].
  destruct load as [kb'|msg]; [right|left]; simpl; eauto.
Qed.

(** A click on the rebuild button replaces the index and the metadata
    together, and only when [build_index] returned and [load_index]
    returned: otherwise both stay as they were and the last message of the
    sidebar is an error. *)
Theorem rebuild_keeps_index_unless_loaded (build : caught unit)
    (load : caught (option Index * option Metadata))
    (kb : option Index * option Metadata) :
  let after := rebuild_clicked build load kb in
  (after.1 = kb ∧ ∃ msg, last after.2 = Some (sidebar_error msg))
  ∨ (build = Fine () ∧ load = Fine after.1
     ∧ last after.2 = Some (sidebar_success "Index rebuilt from PDFs.")).
Proof.
  unfold rebuild_clicked.
  destruct build as [[]|msg]; [|left; eauto].
  destruct load as [kb'|msg]; [right|left]; simpl; eauto.
Qed.

End coverage.

(** ** The rest of the code on examples *)


(** The scan of a confident answer over an entry whose risk level is
    [None]. *)
Lemma null_risk_scan_example :
  py_any is_urgent [ex_patient; ex_null_risk] = Raise AttributeError
  ∧ ∃ before r after,
      [ex_patient; ex_null_risk] = (before ++ r :: after)%list
      ∧ Forall (λ x, risk_typed x ∧ ¬ raw_urgent x) before
      ∧ ¬ risk_typed r.
Proof.
  assert (Hscan : py_any is_urgent [ex_patient; ex_null_risk] = Raise AttributeError)
    by (vm_compute; reflexivity).
  split; [exact Hscan|].
  exact (proj2 (urgency_scan_error_cause _ _ Hscan)).
Defined.


(** An urgent top entry followed by an entry whose risk level is [None]:
    the banner, and no exception. *)
Lemma urgent_first_example :
  kb_decide (H := stub_runtime) "How do I cope?" [ex_urgent; ex_null_risk]
  = Ok (DirectAnswer
          (URGENT_BANNER +:+ direct_body (H := stub_runtime) (normalize ex_urgent))).
Proof.
  apply (urgent_entry_shields_later_entries (H := stub_runtime) "How do I cope?"
           ex_urgent [ex_null_risk] 0.9%float [] ex_urgent [ex_null_risk]).
  - vm_compute. reflexivity.
  - vm_compute. reflexivity.
  - reflexivity.
  - constructor.
  - vm_compute. exact I.
  - left. vm_compute. reflexivity.
Defined.

(** The first example with a score that is not a number. *)
Lemma nan_score_example :
  kb_decide (H := stub_runtime) "How do I cope?" [ex_nan_score]
  = Ok (GroundedPrompt (rag_prompt (H := stub_runtime) "How do I cope?" [ex_nan_score])
          (Some [ex_nan_score])).
Proof.
  apply (nan_score_is_not_confident (H := stub_runtime) "How do I cope?"
           ex_nan_score [] nan).
  - vm_compute. reflexivity.
  - reflexivity.
Defined.

(** A response whose text getter raises [AttributeError] and whose
    first candidate holds a text: the text of the candidate. *)
Lemma response_text_example :
  reply_text (H := stub_runtime) ex_candidate_response = Fine "Have patience."
  ∧ ("Have patience." = NO_ANSWER
     ∨ ∃ s,
         s ≠ "" ∧ "Have patience." = str_strip (PyRuntime := stub_runtime) s
         ∧ (resp_text ex_candidate_response = Value (Some (CStr s))
            ∨ ((∃ t, getattr (resp_text ex_candidate_response) = Fine t
                     ∧ content_truthy t = false)
               ∧ ∃ c cs, resp_candidates ex_candidate_response = Some (c :: cs)
                         ∧ cand_content c = Value (Some (CStr s))))).
Proof.
  split; [reflexivity|].
  exact (reply_text_sound (H := stub_runtime) ex_candidate_response
           "Have patience." eq_refl).
Defined.

(** The third end-to-end example, answered by the model: the text and
    the sources. *)
Lemma grounded_reply_example :
  ∃ reply,
    decide_reply (H := stub_runtime) (fixed_retrieve [ex_low]) ex_model
      (Some ()) (Some ()) "How do I cope?"
    = Ok reply
    ∧ ((∃ msg,
          reply = "Error contacting model: " +:+ msg
          ∧ (ex_model (rag_prompt (H := stub_runtime) "How do I cope?" [ex_low])
             = GenRaise msg
             ∨ ∃ resp,
                 ex_model (rag_prompt (H := stub_runtime) "How do I cope?" [ex_low])
                 = GenOk resp
                 ∧ reply_text (H := stub_runtime) resp = Exc msg))
       ∨ (∃ resp final,
            ex_model (rag_prompt (H := stub_runtime) "How do I cope?" [ex_low])
            = GenOk resp
            ∧ reply_text (H := stub_runtime) resp = Fine final
            ∧ reply = final +:+ NL +:+ NL +:+ "Sources: "
                        +:+ sources (H := stub_runtime) [ex_low])).
Proof.
  apply (grounded_reply_cites_or_reports (H := stub_runtime) (fixed_retrieve [ex_low])
           ex_model (Some ()) (Some ()) "How do I cope?").
  vm_compute. reflexivity.
Defined.

(** A response with no text and a candidate whose content is an object
    of the service. *)
Lemma content_object_example :
  generate (H := stub_runtime) (λ _, GenOk ex_content_response) "How do I cope?" None
  = "Error contacting model: Unknown field for Content: strip".
Proof.
  exact (object_content_is_reported (H := stub_runtime)
           (λ _, GenOk ex_content_response) "How do I cope?" None (Value None) None
           true "Unknown field for Content: strip" [] eq_refl eq_refl eq_refl).
Defined.

(** A submission with an empty input box. *)
Lemma blank_submit_example :
  _on_submit (H := stub_runtime) (fixed_retrieve [ex_patient]) ex_model
    (Some ()) (Some ()) ex_idle_session
  = ({| user_input := Some "";
        history := Some [("How do I cope?", "Have patience.")];
        _show_warning := Some true |}, Ok ()).
Proof.
  exact (submit_blank_consults_nothing (H := stub_runtime) (fixed_retrieve [ex_patient])
           ex_model (Some ()) (Some ()) ex_idle_session eq_refl).
Defined.

(** A submission against an entry whose score is [None]. *)
Lemma failed_submit_example :
  (_on_submit (H := stub_runtime) (fixed_retrieve [ex_none_score]) ex_model
     (Some ()) (Some ()) ex_session).2 = Raise TypeError
  ∧ user_input
      (_on_submit (H := stub_runtime) (fixed_retrieve [ex_none_score]) ex_model
         (Some ()) (Some ()) ex_session).1
    = Some "How do I cope?".
Proof.
  assert (Hraise : (_on_submit (H := stub_runtime) (fixed_retrieve [ex_none_score])
                      ex_model (Some ()) (Some ()) ex_session).2 = Raise TypeError)
    by (vm_compute; reflexivity).
  split; [exact Hraise|].
  exact (proj1 (proj2 (submit_failure_keeps_input (H := stub_runtime)
                         (fixed_retrieve [ex_none_score]) ex_model (Some ()) (Some ())
                         ex_session TypeError Hraise))).
Defined.

(** A submission answered from the first end-to-end example. *)
Lemma shown_exchange_example :
  display_history
    (default []
       (history
          (_on_submit (H := stub_runtime) (fixed_retrieve [ex_patient]) ex_model
             (Some ()) (Some ()) ex_session).1))
  = [user_block "How do I cope?";
     bot_block ("Be patient." +:+ NL +:+ NL +:+ "Source: [Quran-Tafsir | ID:A1]")].
Proof.
  refine (proj2 (proj2 (submit_success_shows_exchange (H := stub_runtime)
                          (fixed_retrieve [ex_patient]) ex_model (Some ()) (Some ())
                          ex_session
                          ("Be patient." +:+ NL +:+ NL +:+ "Source: [Quran-Tafsir | ID:A1]")
                          _ _))).
  - discriminate.
  - vm_compute. reflexivity.
Defined.

(** Two submissions in a row of one question. *)
Lemma resubmit_example :
  history
    (_on_submit (H := stub_runtime) (fixed_retrieve [ex_patient]) ex_model
       (Some ()) (Some ())
       (_on_submit (H := stub_runtime) (fixed_retrieve [ex_patient]) ex_model
          (Some ()) (Some ()) ex_session).1).1
  = history
      (_on_submit (H := stub_runtime) (fixed_retrieve [ex_patient]) ex_model
         (Some ()) (Some ()) ex_session).1.
Proof.
  refine (proj1 (proj2 (resubmit_adds_nothing (H := stub_runtime)
                          (fixed_retrieve [ex_patient]) ex_model (Some ()) (Some ())
                          ex_session eq_refl _))).
  vm_compute. reflexivity.
Defined.
